(** * Pipedrive API client: activities and webhooks services

    A shallow embedding of the two resource services of the Go package
    [pipedrive] (the activities service and [webhooks.go]) together
    with the properties of their request construction and error propagation.

    Every operation of the two services has the same shape: it asks the
    client to build a request ([NewRequest]), hands the request to the
    client's response decoder ([Do]) and forwards what comes back.  The client
    itself lives in another file of the package, so the operations are
    embedded over an arbitrary client and every call they make is recorded in
    a trace; a client that follows the specification's description of the
    request builder and response decoder is given at the end and used wherever
    a statement speaks about the request that is finally built. *)

From Stdlib Require Import ZArith List String Ascii Bool Lia.
From Stdlib Require Import DecimalString DecimalZ DecimalPos.
Import ListNotations.
Open Scope string_scope.
Open Scope Z_scope.

Set Implicit Arguments.
Set Warnings "-register-all".

(** ** Go values used by the services *)

(** [fmt.Sprintf("%v", id)] for an [int]: the decimal rendering, with a
    leading minus sign for negative numbers. *)
Definition itoa (z : Z) : string := NilZero.string_of_int (Z.to_int z).

(** Reading a decimal rendering back, as [strconv.Atoi] does. *)
Definition atoi (s : string) : option Z := option_map Z.of_int (NilZero.int_of_string s).

(** [fmt.Sprintf("/activities/%v", id)] and [fmt.Sprintf("/webhooks/%v", id)]:
    the format string has one verb, at its end. *)
Definition Sprintf_v (prefix : string) (id : Z) : string := prefix ++ itoa id.

(** The shape of a decimal rendering: a non-empty run of digits without a
    leading zero (the single digit 0 apart), after a minus sign for a negative
    number, and no minus sign before a lone 0. *)
Definition isDigit (ch : ascii) : bool :=
  (48 <=? N_of_ascii ch)%N && (N_of_ascii ch <=? 57)%N.

Fixpoint allDigits (s : string) : bool :=
  match s with
  | EmptyString => true
  | String ch rest => isDigit ch && allDigits rest
  end.

Definition canonicalUnsigned (s : string) : bool :=
  match s with
  | EmptyString => false
  | String ch rest =>
      allDigits s && (negb (Ascii.eqb ch "0") || (String.length rest =? 0)%nat)
  end.

Definition canonicalDecimal (s : string) : bool :=
  match s with
  | EmptyString => false
  | String ch rest =>
      if Ascii.eqb ch "-"
      then canonicalUnsigned rest && negb (String.eqb rest "0")
      else canonicalUnsigned s
  end.

(** ** Strings as [encoding/json] writes them *)

(** The UTF-8 encoding of U+FFFD, the replacement character. *)
Definition replacementChar : string :=
  String (ascii_of_N 239) (String (ascii_of_N 191) (String (ascii_of_N 189) EmptyString)).

Definition byteIn (lo hi : N) (b : ascii) : bool :=
  (lo <=? N_of_ascii b)%N && (N_of_ascii b <=? hi)%N.

(** [unicode/utf8]'s table of leading bytes: the length of the sequence a
    leading byte starts and the range its second byte must lie in; [None] for
    a byte that starts no sequence of two to four bytes. *)
Definition leadingByte (b : ascii) : option (nat * N * N) :=
  if byteIn 194 223 b then Some (2%nat, 128%N, 191%N)
  else if byteIn 224 224 b then Some (3%nat, 160%N, 191%N)
  else if byteIn 225 236 b then Some (3%nat, 128%N, 191%N)
  else if byteIn 237 237 b then Some (3%nat, 128%N, 159%N)
  else if byteIn 238 239 b then Some (3%nat, 128%N, 191%N)
  else if byteIn 240 240 b then Some (4%nat, 144%N, 191%N)
  else if byteIn 241 243 b then Some (4%nat, 128%N, 191%N)
  else if byteIn 244 244 b then Some (4%nat, 128%N, 143%N)
  else None.

(** The value of the JSON string written for a Go string: the encoder walks
    the bytes, keeps every ASCII byte and every well-formed UTF-8 sequence
    ([utf8.DecodeRuneInString]), and writes U+FFFD for each byte that starts
    none, then goes on with the next byte. *)
Fixpoint toValidUTF8 (s : string) : string :=
  match s with
  | EmptyString => EmptyString
  | String b0 rest =>
      if (N_of_ascii b0 <? 128)%N then String b0 (toValidUTF8 rest)
      else
        match leadingByte b0 with
        | Some (2%nat, lo, hi) =>
            match rest with
            | String b1 rest1 =>
                if byteIn lo hi b1
                then String b0 (String b1 (toValidUTF8 rest1))
                else replacementChar ++ toValidUTF8 rest
            | _ => replacementChar ++ toValidUTF8 rest
            end
        | Some (3%nat, lo, hi) =>
            match rest with
            | String b1 (String b2 rest2) =>
                if byteIn lo hi b1 && byteIn 128 191 b2
                then String b0 (String b1 (String b2 (toValidUTF8 rest2)))
                else replacementChar ++ toValidUTF8 rest
            | _ => replacementChar ++ toValidUTF8 rest
            end
        | Some (4%nat, lo, hi) =>
            match rest with
            | String b1 (String b2 (String b3 rest3)) =>
                if byteIn lo hi b1 && byteIn 128 191 b2 && byteIn 128 191 b3
                then String b0 (String b1 (String b2 (String b3 (toValidUTF8 rest3))))
                else replacementChar ++ toValidUTF8 rest
            | _ => replacementChar ++ toValidUTF8 rest
            end
        | _ => replacementChar ++ toValidUTF8 rest
        end
  end.



(** A decoded or encoded JSON document.  Objects keep the order of their
    members, as Go's encoder writes struct fields in declaration order.  A
    string is the value it denotes, in UTF-8, whatever escapes the text uses;
    a number is an integer or, when it is none, a decimal
    [mantissa * 10 ^ exponent]. *)
Inductive json : Type :=
| JNull
| JBool (b : bool)
| JNumber (n : Z)
| JDecimal (mantissa exponent : Z)
| JString (s : string)
| JArray (l : list json)
| JObject (members : list (string * json)).

(** The values a struct field of the option types can hold.  A field of type
    [interface{}] is either the nil interface or holds a value, which is
    represented by the document it marshals to. *)
Inductive GoValue : Type :=
| GoString (s : string)
| GoUint (n : Z)
| GoIface (v : option json).

(** [encoding/json]'s [isEmptyValue], which decides [omitempty]. *)
Definition isEmptyValue (v : GoValue) : bool :=
  match v with
  | GoString s => (String.length s =? 0)%nat
  | GoUint n => n =? 0
  | GoIface None => true
  | GoIface (Some _) => false
  end.

Definition marshalValue (v : GoValue) : json :=
  match v with
  | GoString s => JString (toValidUTF8 s)
  | GoUint n => JNumber n
  | GoIface None => JNull
  | GoIface (Some j) => j
  end.

(** One field of a struct declaration as [encoding/json] sees it: the Go name,
    the name and [omitempty] option of its [json] tag when it has one, and the
    value it holds.  Tags of other keys ([url]) are invisible to the
    encoder. *)
Record StructField : Type := mkField {
  fieldName : string;
  jsonTag : option (string * bool);
  fieldValue : GoValue
}.

(** The key a field is encoded under: the tag's name when the tag gives one,
    the Go field name otherwise. *)
Definition jsonName (f : StructField) : string :=
  match jsonTag f with
  | Some (n, _) => if (String.length n =? 0)%nat then fieldName f else n
  | None => fieldName f
  end.

Definition tagged (f : StructField) : bool :=
  match jsonTag f with
  | Some (n, _) => negb (String.length n =? 0)%nat
  | None => false
  end.

Definition omitEmpty (f : StructField) : bool :=
  match jsonTag f with
  | Some (_, o) => o
  | None => false
  end.

(** [encoding/json] resolves fields that share a key.  All fields of the
    structs below are declared directly in the struct (none is promoted from
    an embedded struct), so they sit at the same depth and the rule is: a key
    used by one field belongs to it; a key used by several fields belongs to
    the only tagged one among them, and to none of them when there are
    several tagged ones or none.  The dropped fields are skipped silently. *)
Definition sameKey (f g : StructField) : bool := String.eqb (jsonName f) (jsonName g).

Definition dominantField (fs : list StructField) (i : nat) (f : StructField) : bool :=
  match filter (fun ig => sameKey f (snd ig)) (combine (seq 0 (List.length fs)) fs) with
  | [_] => true
  | group =>
      match filter (fun ig => tagged (snd ig)) group with
      | [(j, _)] => (i =? j)%nat
      | _ => false
      end
  end.

Definition typeFields (fs : list StructField) : list StructField :=
  map snd (filter (fun ig => dominantField fs (fst ig) (snd ig))
                  (combine (seq 0 (List.length fs)) fs)).

(** The members written for a struct: the surviving fields in declaration
    order, without those that are empty and marked [omitempty]. *)
Definition marshalFields (fs : list StructField) : list (string * json) :=
  map (fun f => (jsonName f, marshalValue (fieldValue f)))
      (filter (fun f => negb (omitEmpty f && isEmptyValue (fieldValue f)))
              (typeFields fs)).

Definition marshalStruct (fs : list StructField) : json := JObject (marshalFields fs).

Definition keys (j : json) : list string :=
  match j with
  | JObject ms => map fst ms
  | _ => []
  end.


(** ** The structs of the activities service *)

Module Participants.
Record t : Type := mk {
  PersonID : Z;
  PrimaryFlag : bool
}.
End Participants.

(** [Activity]; the fields of type [interface{}] hold whatever document the
    remote side sent. *)
Module Activity.
Record t : Type := mk {
  Id : Z;
  Type_ : string;
  Duration : string;
  Subject : string;
  CompanyID : Z;
  UserID : Z;
  Done : bool;
  DueDate : string;
  DueTime : string;
  AddTime : string;
  MarkedAsDoneTime : string;
  OrgID : Z;
  PersonID : Z;
  DealID : Z;
  ActiveFlag : bool;
  UpdateTime : string;
  ConferenceMeetingClient : option json;
  ConferenceMeetingURL : option json;
  ConferenceMeetingID : Z;
  BusyFlag : bool;
  PublicDescription : string;
  Location : string;
  UpdateUserID : Z;
  SourceTimezone : string;
  LeadID : Z;
  LocationSubpremise : option json;
  LocationStreetNumber : Z;
  LocationRoute : string;
  LocationSublocality : string;
  LocationLocality : string;
  LocationAdminAreaLevel1 : string;
  LocationAdminAreaLevel2 : string;
  LocationCountry : string;
  LocationPostalCode : string;
  LocationFormattedAddress : string;
  ProjectID : Z
}.
End Activity.

Module ActivityResponse.
Record t : Type := mk {
  Success : bool;
  Data : Activity.t
}.
End ActivityResponse.

(** [ActivitiesReponse] (spelled as in the source); [AdditionalData] is
    declared in another file of the package. *)
Module ActivitiesReponse.
Record t (AdditionalData : Type) : Type := mk {
  Success : bool;
  Data : list Activity.t;
  AdditionalData_ : AdditionalData
}.
End ActivitiesReponse.

(** [ActivitiesCreateOptions], used by both [Create] and [Update].  [uint] and
    [uint8] fields are non-negative integers; [Participants] is an
    [interface{}]. *)
Module ActivitiesCreateOptions.
Record t : Type := mk {
  Subject : string;
  Done : Z;
  Type_ : string;
  DueDate : string;
  DueTime : string;
  Duration : string;
  UserID : Z;
  DealID : Z;
  PersonID : Z;
  Participants : option json;
  OrgID : Z
}.

(** The declaration as the JSON encoder reads it, field by field with the
    [json] tag of each.  [UserID] and [DealID] carry the same tag. *)
Definition fields (o : t) : list StructField :=
  [ mkField "Subject" (Some ("subject", true)) (GoString (Subject o));
    mkField "Done" (Some ("done", true)) (GoUint (Done o));
    mkField "Type" (Some ("type", true)) (GoString (Type_ o));
    mkField "DueDate" (Some ("due_date", true)) (GoString (DueDate o));
    mkField "DueTime" (Some ("due_time", true)) (GoString (DueTime o));
    mkField "Duration" (Some ("duration", true)) (GoString (Duration o));
    mkField "UserID" (Some ("user_id", true)) (GoUint (UserID o));
    mkField "DealID" (Some ("user_id", true)) (GoUint (DealID o));
    mkField "PersonID" (Some ("person_id", true)) (GoUint (PersonID o));
    mkField "Participants" (Some ("participants", true)) (GoIface (Participants o));
    mkField "OrgID" (Some ("org_id", true)) (GoUint (OrgID o)) ].

(** What [json.Marshal] writes for a pointer to the struct: [null] for the
    nil pointer, the object otherwise. *)
Definition marshal (p : option t) : json :=
  match p with
  | None => JNull
  | Some o => marshalStruct (fields o)
  end.
End ActivitiesCreateOptions.

(** ** The structs of [webhooks.go] *)

Module Webhook.
Record t (Time : Type) : Type := mk {
  ID : Z;
  CompanyID : Z;
  OwnerID : Z;
  UserID : Z;
  EventAction : string;
  EventObject : string;
  SubscriptionURL : string;
  IsActive : Z;
  AddTime : Time;
  RemoveTime : option json;
  Type_ : string;
  HTTPAuthUser : option json;
  HTTPAuthPassword : option json;
  AdditionalData : unit;
  LastDeliveryTime : Time;
  LastHTTPStatus : Z;
  AdminID : Z
}.
End Webhook.

Module Webhooks.
Record t (Time : Type) : Type := mk {
  Status : string;
  Success : bool;
  Data : list (Webhook.t Time)
}.
End Webhooks.

Module SingleWebhook.
Record t (Time : Type) : Type := mk {
  Status : string;
  Success : bool;
  Data : Webhook.t Time
}.
End SingleWebhook.

(** [WebhooksCreateOptions].  The types [EventAction] and [EventObject] are
    declared in another file of the package; they are parameters here, together
    with the Go value each of them is encoded from.  The struct declares [url]
    tags only, so the JSON encoder sees no tag at all. *)
Module WebhooksCreateOptions.
Record t (EventAction EventObject : Type) : Type := mk {
  SubscriptionUrl : string;
  EventAction_ : EventAction;
  DealProbability : EventObject;
  UserId : Z;
  HttpAuthUser : string;
  HttpAuthPassword : string
}.

Section Fields.
Variables EventAction EventObject : Type.
Variable eventActionValue : EventAction -> GoValue.
Variable eventObjectValue : EventObject -> GoValue.

Definition fields (o : t EventAction EventObject) : list StructField :=
  [ mkField "SubscriptionUrl" None (GoString (SubscriptionUrl o));
    mkField "EventAction" None (eventActionValue (EventAction_ o));
    mkField "DealProbability" None (eventObjectValue (DealProbability o));
    mkField "UserId" None (GoUint (UserId o));
    mkField "HttpAuthUser" None (GoString (HttpAuthUser o));
    mkField "HttpAuthPassword" None (GoString (HttpAuthPassword o)) ].

Definition marshal (p : option (t EventAction EventObject)) : json :=
  match p with
  | None => JNull
  | Some o => marshalStruct (fields o)
  end.
End Fields.
End WebhooksCreateOptions.

(** ** Types used by the services and declared elsewhere in the package *)

(** Modelled from the spec: the struct [PaginationParameters] is declared in
    another file; it carries the pagination parameters [limit] and [cursor]
    that [List] reads as [opts.Limit] and [opts.Cursor]. *)
Module PaginationParameters.
Record t : Type := mk {
  Limit : Z;
  Cursor : string
}.
End PaginationParameters.

(** Modelled from the spec: the struct [DeleteMultipleOptions] is declared in
    another file; [DeleteMultiple] fills its field [Ids], the ID filter. *)
Module DeleteMultipleOptions.
Record t : Type := mk {
  Ids : string
}.
End DeleteMultipleOptions.

(** Modelled from the spec: the helper [arrayToString] is declared in another
    file; it joins an ID list into a string, the decimal renderings of the IDs
    separated by the delimiter. *)
Fixpoint arrayToString (a : list Z) (delim : string) : string :=
  match a with
  | [] => ""
  | [x] => itoa x
  | x :: rest => itoa x ++ delim ++ arrayToString rest delim
  end.

(** [net/http]'s method names. *)
Definition MethodGet : string := "GET".
Definition MethodPost : string := "POST".
Definition MethodPut : string := "PUT".
Definition MethodDelete : string := "DELETE".

(** ** The client and the trace of its calls *)

Section Services.

(** Types declared outside the two files: [context.Context], the package's
    [Response], [Summary] and [AdditionalData], [time.Time], Go's [error],
    [http.Request], and the two event types of the webhook options. *)
Variables context Response Summary AdditionalData Time error Request : Type.
Variables EventAction EventObject : Type.

(** The third argument of [NewRequest] is an [interface{}]: the nil
    interface ([None] below) or a pointer to one of three structs.  [Update]
    passes its [opt] pointer as it received it, so that pointer may itself
    be nil. *)
Inductive QueryArg : Type :=
| QueryPagination (opts : PaginationParameters.t)
| QueryActivitiesCreateOptions (opt : option ActivitiesCreateOptions.t)
| QueryDeleteMultipleOptions (opt : DeleteMultipleOptions.t).

(** The fourth argument of [NewRequest], the body object. *)
Inductive BodyArg : Type :=
| BodyActivitiesCreateOptions (opt : option ActivitiesCreateOptions.t)
| BodyWebhooksCreateOptions (opt : option (WebhooksCreateOptions.t EventAction EventObject)).

(** The destination handed to [Do]: the address of a nil [record] pointer
    of one of five types, or nil. *)
Inductive Dest : Type :=
| DestSummary
| DestActivitiesReponse
| DestActivityResponse
| DestWebhooks
| DestSingleWebhook
| DestNil.

Definition payload (v : Dest) : Type :=
  match v with
  | DestSummary => Summary
  | DestActivitiesReponse => ActivitiesReponse.t AdditionalData
  | DestActivityResponse => ActivityResponse.t
  | DestWebhooks => Webhooks.t Time
  | DestSingleWebhook => SingleWebhook.t Time
  | DestNil => unit
  end.

(** A call of a client method, with its arguments and what it returned. *)
Inductive Event : Type :=
| EvNewRequest (method url : string) (opt : option QueryArg) (body : option BodyArg)
               (req : option Request) (err : option error)
| EvDo (ctx : option context) (req : option Request) (v : Dest)
       (resp : option Response) (err : option error).

Definition World : Type := list Event.

(** The two client methods.  Each returns a Go tuple whose components may
    each be nil; what a method answers may depend on everything that
    happened before (the network is outside the program).  [Do] receives
    [&record] with [record] nil and the first component of its answer is
    [record] afterwards.  [webhooks.go] calls [Do] without a context. *)
Record Client : Type := mkClient {
  NewRequest : World -> string -> string -> option QueryArg -> option BodyArg ->
               option Request * option error;
  Do : forall v : Dest, World -> option context -> option Request ->
       option (payload v) * option Response * option error
}.

(** [type service struct { client *Client }]; [ActivitiesService] and
    [WebhooksService] are both defined as [service]. *)
Record service : Type := mkService { client : Client }.

(** Computations that call the client: the trace is threaded through. *)
Definition M (A : Type) : Type := World -> A * World.

Definition ret {A : Type} (a : A) : M A := fun w => (a, w).

Definition bind {A B : Type} (m : M A) (k : A -> M B) : M B :=
  fun w => let (a, w') := m w in k a w'.

Notation "x <- m ;; k" := (bind m (fun x => k))
  (at level 61, m at next level, right associativity).
Notation "' p <- m ;; k" := (bind m (fun x => match x with p => k end))
  (at level 61, p pattern, m at next level, right associativity).

Definition callNewRequest (c : Client) (method url : string)
    (opt : option QueryArg) (body : option BodyArg) : M (option Request * option error) :=
  fun w => let r := NewRequest c w method url opt body in
           (r, (w ++ [EvNewRequest method url opt body (fst r) (snd r)])%list).

Definition callDo (c : Client) (ctx : option context) (req : option Request) (v : Dest)
    : M (option (payload v) * option Response * option error) :=
  fun w => let r := Do c v w ctx req in
           (r, (w ++ [EvDo ctx req v (snd (fst r)) (snd r)])%list).

(** ** The activities service *)

Definition ActivitiesService_Summary (s : service) (ctx : context)
    : M (option Summary * option Response * option error) :=
  '(req, err) <- callNewRequest (client s) MethodGet "/activities/summary" None None ;;
  match err with
  | Some e => ret (None, None, Some e)
  | None =>
      '(record, resp, err) <- callDo (client s) (Some ctx) req DestSummary ;;
      match err with
      | Some e => ret (None, resp, Some e)
      | None => ret (record, resp, None)
      end
  end.

(** [List] chooses the query argument in a [switch] and then calls [Do]
    straight away: the [err] assigned by [NewRequest] is overwritten by the
    [err] of [Do] without having been read. *)
Definition ActivitiesService_List (s : service) (ctx : context) (opts : PaginationParameters.t)
    : M (option (ActivitiesReponse.t AdditionalData) * option Response * option error) :=
  '(req, _) <-
    (if (PaginationParameters.Limit opts >? 0)
        || negb (String.length (PaginationParameters.Cursor opts) =? 0)%nat
     then callNewRequest (client s) MethodGet "/activities/collection"
                         (Some (QueryPagination opts)) None
     else callNewRequest (client s) MethodGet "/activities/collection" None None) ;;
  '(record, resp, err) <- callDo (client s) (Some ctx) req DestActivitiesReponse ;;
  match err with
  | Some e => ret (None, resp, Some e)
  | None => ret (record, resp, None)
  end.

Definition ActivitiesService_GetByID (s : service) (ctx : context) (id : Z)
    : M (option (ActivitiesReponse.t AdditionalData) * option Response * option error) :=
  let uri := Sprintf_v "/activities/" id in
  '(req, err) <- callNewRequest (client s) MethodGet uri None None ;;
  match err with
  | Some e => ret (None, None, Some e)
  | None =>
      '(record, resp, err) <- callDo (client s) (Some ctx) req DestActivitiesReponse ;;
      match err with
      | Some e => ret (None, resp, Some e)
      | None => ret (record, resp, None)
      end
  end.

Definition ActivitiesService_Create (s : service) (ctx : context)
    (opt : option ActivitiesCreateOptions.t)
    : M (option ActivityResponse.t * option Response * option error) :=
  '(req, err) <- callNewRequest (client s) MethodPost "/activities" None
                                (Some (BodyActivitiesCreateOptions opt)) ;;
  match err with
  | Some e => ret (None, None, Some e)
  | None =>
      '(record, resp, err) <- callDo (client s) (Some ctx) req DestActivityResponse ;;
      match err with
      | Some e => ret (None, resp, Some e)
      | None => ret (record, resp, None)
      end
  end.

Definition ActivitiesService_Update (s : service) (ctx : context) (id : Z)
    (opt : option ActivitiesCreateOptions.t)
    : M (option ActivityResponse.t * option Response * option error) :=
  let uri := Sprintf_v "/activities/" id in
  '(req, err) <- callNewRequest (client s) MethodPut uri
                                (Some (QueryActivitiesCreateOptions opt)) None ;;
  match err with
  | Some e => ret (None, None, Some e)
  | None =>
      '(record, resp, err) <- callDo (client s) (Some ctx) req DestActivityResponse ;;
      match err with
      | Some e => ret (None, resp, Some e)
      | None => ret (record, resp, None)
      end
  end.

Definition ActivitiesService_DeleteMultiple (s : service) (ctx : context) (ids : list Z)
    : M (option Response * option error) :=
  '(req, err) <- callNewRequest (client s) MethodDelete "/activities"
                   (Some (QueryDeleteMultipleOptions
                            (DeleteMultipleOptions.mk (arrayToString ids ","))))
                   None ;;
  match err with
  | Some e => ret (None, Some e)
  | None =>
      '(_, resp, err) <- callDo (client s) (Some ctx) req DestNil ;;
      ret (resp, err)
  end.

Definition ActivitiesService_Delete (s : service) (ctx : context) (id : Z)
    : M (option Response * option error) :=
  let uri := Sprintf_v "/activities/" id in
  '(req, err) <- callNewRequest (client s) MethodDelete uri None None ;;
  match err with
  | Some e => ret (None, Some e)
  | None =>
      '(_, resp, err) <- callDo (client s) (Some ctx) req DestNil ;;
      ret (resp, err)
  end.

(** ** The webhooks service *)

Definition WebhooksService_List (s : service)
    : M (option (Webhooks.t Time) * option Response * option error) :=
  '(req, err) <- callNewRequest (client s) MethodGet "/webhooks" None None ;;
  match err with
  | Some e => ret (None, None, Some e)
  | None =>
      '(record, resp, err) <- callDo (client s) None req DestWebhooks ;;
      match err with
      | Some e => ret (None, resp, Some e)
      | None => ret (record, resp, None)
      end
  end.

Definition WebhooksService_Create (s : service)
    (opt : option (WebhooksCreateOptions.t EventAction EventObject))
    : M (option (SingleWebhook.t Time) * option Response * option error) :=
  '(req, err) <- callNewRequest (client s) MethodPost "/webhooks" None
                                (Some (BodyWebhooksCreateOptions opt)) ;;
  match err with
  | Some e => ret (None, None, Some e)
  | None =>
      '(record, resp, err) <- callDo (client s) None req DestSingleWebhook ;;
      match err with
      | Some e => ret (None, resp, Some e)
      | None => ret (record, resp, None)
      end
  end.

Definition WebhooksService_Delete (s : service) (id : Z)
    : M (option Response * option error) :=
  let uri := Sprintf_v "/webhooks/" id in
  '(req, err) <- callNewRequest (client s) MethodDelete uri None None ;;
  match err with
  | Some e => ret (None, Some e)
  | None =>
      '(_, resp, err) <- callDo (client s) None req DestNil ;;
      ret (resp, err)
  end.

(** ** The operations, uniformly *)

(** A call of one of the ten operations with its arguments. *)
Inductive Operation : Type :=
| OpSummary (ctx : context)
| OpList (ctx : context) (opts : PaginationParameters.t)
| OpGetByID (ctx : context) (id : Z)
| OpCreate (ctx : context) (opt : option ActivitiesCreateOptions.t)
| OpUpdate (ctx : context) (id : Z) (opt : option ActivitiesCreateOptions.t)
| OpDeleteMultiple (ctx : context) (ids : list Z)
| OpDelete (ctx : context) (id : Z)
| OpWebhooksList
| OpWebhooksCreate (opt : option (WebhooksCreateOptions.t EventAction EventObject))
| OpWebhooksDelete (id : Z).

(** What an operation returns, with the typed record reduced to whether it
    is nil.  The two delete operations return no record. *)
Record Outcome : Type := mkOutcome {
  recordIsNil : bool;
  outResp : option Response;
  outErr : option error
}.

Definition isNil {A : Type} (o : option A) : bool :=
  match o with
  | None => true
  | Some _ => false
  end.

Definition outcome3 {T : Type} (r : (option T * option Response * option error) * World)
    : Outcome * World :=
  let '((record, resp, err), w) := r in (mkOutcome (isNil record) resp err, w).

Definition outcome2 (r : (option Response * option error) * World) : Outcome * World :=
  let '((resp, err), w) := r in (mkOutcome true resp err, w).

Definition run (c : Client) (op : Operation) : M Outcome :=
  fun w =>
    let s := mkService c in
    match op with
    | OpSummary ctx => outcome3 (ActivitiesService_Summary s ctx w)
    | OpList ctx opts => outcome3 (ActivitiesService_List s ctx opts w)
    | OpGetByID ctx id => outcome3 (ActivitiesService_GetByID s ctx id w)
    | OpCreate ctx opt => outcome3 (ActivitiesService_Create s ctx opt w)
    | OpUpdate ctx id opt => outcome3 (ActivitiesService_Update s ctx id opt w)
    | OpDeleteMultiple ctx ids => outcome2 (ActivitiesService_DeleteMultiple s ctx ids w)
    | OpDelete ctx id => outcome2 (ActivitiesService_Delete s ctx id w)
    | OpWebhooksList => outcome3 (WebhooksService_List s w)
    | OpWebhooksCreate opt => outcome3 (WebhooksService_Create s opt w)
    | OpWebhooksDelete id => outcome2 (WebhooksService_Delete s id w)
    end.

(** The calls an operation makes: what it appends to the trace. *)
Definition calls (c : Client) (op : Operation) (w : World) : list Event :=
  skipn (List.length w) (snd (run c op w)).

Definition isDo (e : Event) : bool :=
  match e with
  | EvDo _ _ _ _ _ => true
  | EvNewRequest _ _ _ _ _ _ => false
  end.

Definition countDo (l : list Event) : nat := List.length (filter isDo l).

(** The requests handed to [Do]. *)
Definition sent (l : list Event) : list (option Request) :=
  flat_map (fun e => match e with
                     | EvDo _ req _ _ _ => [req]
                     | EvNewRequest _ _ _ _ _ _ => []
                     end) l.

(** The query arguments of the requests an operation asks for. *)
Definition queryArgs (l : list Event) : list (option QueryArg) :=
  flat_map (fun e => match e with
                     | EvNewRequest _ _ opt _ _ _ => [opt]
                     | EvDo _ _ _ _ _ => []
                     end) l.

(** Pagination is requested by a call that carries pagination parameters
    with a non-empty cursor or a positive limit; [List] is the only
    operation that takes pagination parameters. *)
Definition paginationRequested (op : Operation) : bool :=
  match op with
  | OpList _ opts =>
      negb (String.eqb (PaginationParameters.Cursor opts) "")
      || (0 <? PaginationParameters.Limit opts)
  | _ => false
  end.

(** The operations that pass an options struct as query argument whatever
    its content: [Update] and [DeleteMultiple]. *)
Definition sendsOptionsAsQuery (op : Operation) : bool :=
  match op with
  | OpUpdate _ _ _ => true
  | OpDeleteMultiple _ _ => true
  | _ => false
  end.

(** The statement that an operation attaches query parameters exactly when
    pagination is requested. *)
Definition queryIffPagination (c : Client) (op : Operation) (w : World) : Prop :=
  forall opt, In opt (queryArgs (calls c op w)) ->
              (opt <> None <-> paginationRequested op = true).

(** ** Further views of the operations *)

Definition isList (op : Operation) : bool :=
  match op with
  | OpList _ _ => true
  | _ => false
  end.

(** The context an operation hands to [Do]: the caller's [ctx] in the
    activities service; the webhooks service calls [Do] without one. *)
Definition contextOf (op : Operation) : option context :=
  match op with
  | OpSummary ctx => Some ctx
  | OpList ctx _ => Some ctx
  | OpGetByID ctx _ => Some ctx
  | OpCreate ctx _ => Some ctx
  | OpUpdate ctx _ _ => Some ctx
  | OpDeleteMultiple ctx _ => Some ctx
  | OpDelete ctx _ => Some ctx
  | OpWebhooksList => None
  | OpWebhooksCreate _ => None
  | OpWebhooksDelete _ => None
  end.

(** The four arguments of each call of [NewRequest] in a trace. *)
Definition requestArgs (l : list Event)
    : list (string * string * option QueryArg * option BodyArg) :=
  flat_map (fun e => match e with
                     | EvNewRequest method url opt body _ _ => [(method, url, opt, body)]
                     | EvDo _ _ _ _ _ => []
                     end) l.

(** The seven operations that return a typed record, each with the
    destination type it hands to [Do].  [GetByID] decodes into
    [ActivitiesReponse], as [List] does. *)
Inductive RecordOperation : Type :=
| RecSummary (ctx : context)
| RecList (ctx : context) (opts : PaginationParameters.t)
| RecGetByID (ctx : context) (id : Z)
| RecCreate (ctx : context) (opt : option ActivitiesCreateOptions.t)
| RecUpdate (ctx : context) (id : Z) (opt : option ActivitiesCreateOptions.t)
| RecWebhooksList
| RecWebhooksCreate (opt : option (WebhooksCreateOptions.t EventAction EventObject)).

Definition destOf (op : RecordOperation) : Dest :=
  match op with
  | RecSummary _ => DestSummary
  | RecList _ _ => DestActivitiesReponse
  | RecGetByID _ _ => DestActivitiesReponse
  | RecCreate _ _ => DestActivityResponse
  | RecUpdate _ _ _ => DestActivityResponse
  | RecWebhooksList => DestWebhooks
  | RecWebhooksCreate _ => DestSingleWebhook
  end.

Definition operationOf (op : RecordOperation) : Operation :=
  match op with
  | RecSummary ctx => OpSummary ctx
  | RecList ctx opts => OpList ctx opts
  | RecGetByID ctx id => OpGetByID ctx id
  | RecCreate ctx opt => OpCreate ctx opt
  | RecUpdate ctx id opt => OpUpdate ctx id opt
  | RecWebhooksList => OpWebhooksList
  | RecWebhooksCreate opt => OpWebhooksCreate opt
  end.

Definition runRecord (c : Client) (op : RecordOperation)
    : M (option (payload (destOf op)) * option Response * option error) :=
  let s := mkService c in
  match op as o return M (option (payload (destOf o)) * option Response * option error) with
  | RecSummary ctx => ActivitiesService_Summary s ctx
  | RecList ctx opts => ActivitiesService_List s ctx opts
  | RecGetByID ctx id => ActivitiesService_GetByID s ctx id
  | RecCreate ctx opt => ActivitiesService_Create s ctx opt
  | RecUpdate ctx id opt => ActivitiesService_Update s ctx id opt
  | RecWebhooksList => WebhooksService_List s
  | RecWebhooksCreate opt => WebhooksService_Create s opt
  end.

End Services.

Arguments EvNewRequest {context Response error Request EventAction EventObject}.
Arguments EvDo {context Response error Request EventAction EventObject}.
Arguments BodyActivitiesCreateOptions {EventAction EventObject}.
Arguments OpSummary {context EventAction EventObject}.
Arguments OpList {context EventAction EventObject}.
Arguments OpGetByID {context EventAction EventObject}.
Arguments OpCreate {context EventAction EventObject}.
Arguments OpUpdate {context EventAction EventObject}.
Arguments OpDeleteMultiple {context EventAction EventObject}.
Arguments OpDelete {context EventAction EventObject}.
Arguments OpWebhooksList {context EventAction EventObject}.
Arguments OpWebhooksCreate {context EventAction EventObject}.
Arguments OpWebhooksDelete {context EventAction EventObject}.
Arguments RecSummary {context EventAction EventObject}.
Arguments RecList {context EventAction EventObject}.
Arguments RecGetByID {context EventAction EventObject}.
Arguments RecCreate {context EventAction EventObject}.
Arguments RecUpdate {context EventAction EventObject}.
Arguments RecWebhooksList {context EventAction EventObject}.
Arguments RecWebhooksCreate {context EventAction EventObject}.

(** ** A client after the specification *)

(** The request builder and the response decoder are methods of the client,
    which is declared in another file of the package.  The definitions of this
    module follow the specification's description of the two. *)
Module Spec.

(** Modelled from the spec: the transport request produced by the request
    builder, reduced to what the specification names: verb, base URL joined
    with the path, encoded query string and JSON-encoded body.  The injected
    auth header is left out. *)
Record HTTPRequest : Type := mkRequest {
  Method : string;
  URL : string;
  Query : list (string * string);
  Body : option json
}.

(** Modelled from the spec: the raw response metadata, status and body. *)
Record HTTPResponse : Type := mkResponse {
  StatusCode : Z;
  ResponseBody : string
}.

(** Modelled from the spec: the errors of section 7, build failures
    (invalid base URL, failed encoding), transport failures, non-success
    status carrying status code and body, and decode failures.  The
    specification does not say what the decoder does without a request; the
    last error stands for that case. *)
Inductive Error : Type :=
| ErrInvalidBaseURL
| ErrEncoding
| ErrTransport
| ErrStatus (code : Z) (body : string)
| ErrDecode
| ErrNoRequest.

(** Modelled from the spec: the query-string encoding of the pagination
    parameters [limit] and [cursor]; a parameter that was not given (zero
    limit, empty cursor) is not written. *)
Definition paginationValues (p : PaginationParameters.t) : list (string * string) :=
  ((if PaginationParameters.Limit p =? 0 then []
    else [("limit", itoa (PaginationParameters.Limit p))])
   ++ (if String.eqb (PaginationParameters.Cursor p) "" then []
       else [("cursor", PaginationParameters.Cursor p)]))%list.

Section Client.
Variables context Summary AdditionalData Time EventAction EventObject : Type.

(** The Go values the two event types are encoded from. *)
Variable eventActionValue : EventAction -> GoValue.
Variable eventObjectValue : EventObject -> GoValue.

(** The client configuration: the base URL once parsed, [None] when it is
    not a valid URL. *)
Variable BaseURL : option string.

(** The query-string encoding of the two other option structs, which the
    specification leaves open; [None] when encoding fails. *)
Variable encodeOptions : QueryArg -> option (list (string * string)).

Let TraceOf : Type := World context HTTPResponse Error HTTPRequest EventAction EventObject.

(** The remote side: the response to a request, [None] for a transport
    failure; and the JSON decoder of each destination type, [None] when
    the body does not decode. *)
Variable transport : TraceOf -> HTTPRequest -> option HTTPResponse.
Variable decode : forall v : Dest, string -> option (payload Summary AdditionalData Time v).

Definition encodeQuery (opt : option QueryArg) : option (list (string * string)) :=
  match opt with
  | None => Some []
  | Some (QueryPagination p) => Some (paginationValues p)
  | Some q => encodeOptions q
  end.

Definition encodeBody (body : BodyArg EventAction EventObject) : json :=
  match body with
  | BodyActivitiesCreateOptions opt => ActivitiesCreateOptions.marshal opt
  | BodyWebhooksCreateOptions opt =>
      WebhooksCreateOptions.marshal eventActionValue eventObjectValue opt
  end.

(** Modelled from the spec: build(method, path, queryParams, bodyObject),
    section 4.1.  Building fails if the base URL is invalid or encoding
    fails; the body, when present, is JSON-encoded. *)
Definition NewRequest (w : TraceOf) (method url : string) (opt : option QueryArg)
    (body : option (BodyArg EventAction EventObject))
    : option HTTPRequest * option Error :=
  match BaseURL with
  | None => (None, Some ErrInvalidBaseURL)
  | Some base =>
      match encodeQuery opt with
      | None => (None, Some ErrEncoding)
      | Some q => (Some (mkRequest method (base ++ url) q (option_map encodeBody body)), None)
      end
  end.

Definition isSuccess (code : Z) : bool := (200 <=? code) && (code <? 300).

Definition isNilDest (v : Dest) : bool :=
  match v with
  | DestNil => true
  | _ => false
  end.

(** Modelled from the spec: execute(request), section 4.2.  A single
    attempt; any non-success status becomes an error carrying status and
    body, and no decoded value; a decode failure is an error of its
    own. *)
Definition Do (v : Dest) (w : TraceOf) (ctx : option context) (req : option HTTPRequest)
    : option (payload Summary AdditionalData Time v) * option HTTPResponse * option Error :=
  match req with
  | None => (None, None, Some ErrNoRequest)
  | Some r =>
      match transport w r with
      | None => (None, None, Some ErrTransport)
      | Some resp =>
          if isSuccess (StatusCode resp) then
            if isNilDest v then (None, Some resp, None)
            else match decode v (ResponseBody resp) with
                 | Some d => (Some d, Some resp, None)
                 | None => (None, Some resp, Some ErrDecode)
                 end
          else (None, Some resp,
                Some (ErrStatus (StatusCode resp) (ResponseBody resp)))
      end
  end.

Definition client
    : Client context HTTPResponse Summary AdditionalData Time Error HTTPRequest
             EventAction EventObject :=
  mkClient Summary AdditionalData Time NewRequest Do.
End Client.

End Spec.

(** A client after the specification with everything left open filled in the
    simplest way: contexts and the payload types carry no data, the event
    types are strings, the remote side answers every request with the given
    status and an empty body, which never decodes. *)
Definition exampleClient (base : option string) (status : Z)
    : Client unit Spec.HTTPResponse unit unit unit Spec.Error Spec.HTTPRequest string string :=
  Spec.client (context := unit) unit unit unit
    GoString GoString base (fun _ => Some [])
    (fun _ _ => Some (Spec.mkResponse status "")) (fun _ _ => None).

(** A client after the specification whose remote side answers every request
    with the given status and whose decoder yields a [Summary], the only
    payload type without content here, and fails for the other types. *)
Definition summaryClient (base : option string) (status : Z)
    : Client unit Spec.HTTPResponse unit unit unit Spec.Error Spec.HTTPRequest string string :=
  Spec.client (context := unit) unit unit unit
    GoString GoString base (fun _ => Some [])
    (fun _ _ => Some (Spec.mkResponse status "{}"))
    (fun v _ => match v return option (payload unit unit unit v) with
                | DestSummary => Some tt
                | _ => None
                end).

(** Whether a string contains a space, and whether all its characters satisfy
    a test. *)
Fixpoint hasSpace (s : string) : bool :=
  match s with
  | EmptyString => false
  | String ch rest => Ascii.eqb ch " " || hasSpace rest
  end.

Fixpoint allChars (p : ascii -> bool) (s : string) : bool :=
  match s with
  | EmptyString => true
  | String ch rest => p ch && allChars p rest
  end.

(** The characters of a decimal rendering: the minus sign and the digits. *)
Definition isDecimalChar (ch : ascii) : bool :=
  Ascii.eqb ch "-"
  || ((48 <=? Z.of_nat (nat_of_ascii ch)) && (Z.of_nat (nat_of_ascii ch) <=? 57)).

Definition isDecimalOrComma (ch : ascii) : bool := isDecimalChar ch || Ascii.eqb ch ",".

(** ** Proof support *)

Lemma skipn_length_app (A : Type) (l k : list A) :
  skipn (List.length l) (l ++ k)%list = k.
Proof. induction l as [|a l IH]; simpl; auto. Qed.

Lemma length_eqb_0 (s : string) : (String.length s =? 0)%nat = String.eqb s "".
Proof. destruct s; reflexivity. Qed.

Ltac unfold_ops :=
  unfold calls, run, outcome3, outcome2,
    ActivitiesService_Summary, ActivitiesService_List, ActivitiesService_GetByID,
    ActivitiesService_Create, ActivitiesService_Update, ActivitiesService_DeleteMultiple,
    ActivitiesService_Delete, WebhooksService_List, WebhooksService_Create,
    WebhooksService_Delete, bind, ret, callNewRequest, callDo, Sprintf_v,
    MethodGet, MethodPost, MethodPut, MethodDelete; cbn [client].

Ltac split_switch :=
  match goal with
  | |- context [if ((?l >? 0) || ?b) then _ else _] => destruct ((l >? 0) || b) eqn:?
  | _ => idtac
  end.

Ltac answer_client :=
  repeat match goal with
         | |- context [NewRequest ?c ?w ?m ?u ?q ?b] =>
             destruct (NewRequest c w m u q b) as [? [?|]]; cbn [fst snd]
         | |- context [Do ?c ?v ?w ?ctx ?r] =>
             destruct (Do c v w ctx r) as [[? ?] [?|]]; cbn [fst snd]
         end.

Ltac trace_ops :=
  unfold_ops; split_switch; answer_client;
  rewrite <- ?app_assoc, ?skipn_length_app; cbn [app fst snd].

(** ** Properties of the Go values *)

(** The rendering of an id reads back as the id. *)
Lemma atoi_itoa (z : Z) : atoi (itoa z) = Some z.
Proof.
  unfold atoi, itoa. rewrite NilZero.isi.
  - cbn. now rewrite DecimalZ.of_to.
  - destruct z; cbn; try discriminate. intros H; injection H as H.
    now apply Unsigned.to_uint_nonnil in H.
  - destruct z; cbn; try discriminate. intros H; injection H as H.
    now apply Unsigned.to_uint_nonnil in H.
Qed.

Lemma allChars_app (p : ascii -> bool) (s t : string) :
  allChars p (s ++ t) = allChars p s && allChars p t.
Proof. induction s as [|ch s IH]; cbn; [reflexivity|]. now rewrite IH, andb_assoc. Qed.

Lemma allChars_weaken (p q : ascii -> bool) (s : string) :
  (forall ch, p ch = true -> q ch = true) -> allChars p s = true -> allChars q s = true.
Proof.
  intros Hpq. induction s as [|ch s IH]; cbn; [reflexivity|].
  intros H. apply andb_true_iff in H as [H1 H2]. now rewrite (Hpq _ H1), IH.
Qed.

Lemma allChars_no_space (p : ascii -> bool) (s : string) :
  p " "%char = false -> allChars p s = true -> hasSpace s = false.
Proof.
  intros Hp. induction s as [|ch s IH]; cbn; [reflexivity|].
  intros H. apply andb_true_iff in H as [H1 H2]. rewrite (IH H2), orb_false_r.
  destruct (Ascii.eqb_spec ch " "); [congruence | reflexivity].
Qed.

Lemma string_of_uint_chars (d : Decimal.uint) :
  allChars isDecimalChar (NilEmpty.string_of_uint d) = true.
Proof. induction d; cbn; auto. Qed.

(** A rendering consists of digits, after a minus sign for a negative id. *)
Lemma itoa_chars (z : Z) : allChars isDecimalChar (itoa z) = true.
Proof.
  unfold itoa. destruct z as [|p|p]; cbn; [reflexivity| |];
    (destruct (Pos.to_uint p) eqn:E; [reflexivity|..]; cbn [NilZero.string_of_uint];
     rewrite <- ?E; try apply string_of_uint_chars).
Qed.

(** [arrayToString] is the join of the renderings. *)
Lemma arrayToString_concat (a : list Z) (delim : string) :
  arrayToString a delim = String.concat delim (map itoa a).
Proof.
  induction a as [|x [|y rest] IH]; [reflexivity | reflexivity |].
  change (arrayToString (x :: y :: rest) delim)
    with (itoa x ++ delim ++ arrayToString (y :: rest) delim).
  now rewrite IH.
Qed.

Lemma arrayToString_chars (a : list Z) :
  allChars isDecimalOrComma (arrayToString a ",") = true.
Proof.
  assert (D : forall z, allChars isDecimalOrComma (itoa z) = true).
  { intros z. apply allChars_weaken with (p := isDecimalChar); [|apply itoa_chars].
    intros ch H. unfold isDecimalOrComma. now rewrite H. }
  induction a as [|x [|y rest] IH]; [reflexivity | apply D |].
  change (arrayToString (x :: y :: rest) ",")
    with (itoa x ++ "," ++ arrayToString (y :: rest) ",").
  now rewrite !allChars_app, D, IH.
Qed.

(** The fields of [ActivitiesCreateOptions] that the encoder keeps: nine of
    the eleven, [UserID] and [DealID] cancel each other. *)
Lemma typeFields_ActivitiesCreateOptions (o : ActivitiesCreateOptions.t) :
  map fieldName (typeFields (ActivitiesCreateOptions.fields o))
  = ["Subject"; "Done"; "Type"; "DueDate"; "DueTime"; "Duration";
     "PersonID"; "Participants"; "OrgID"].
Proof. reflexivity. Qed.

Lemma keys_marshalStruct (fs : list StructField) (k : string) :
  In k (keys (marshalStruct fs)) -> In k (map jsonName (typeFields fs)).
Proof.
  unfold marshalStruct, marshalFields, keys. rewrite map_map. cbn [fst].
  intros H. apply in_map_iff in H as (f & <- & Hf). apply filter_In in Hf as [Hf _].
  now apply in_map.
Qed.

(** A value with [UserID] 7 and [DealID] 9: neither reaches the body, while
    the subject and [PersonID] do. *)
Example marshal_ActivitiesCreateOptions_example :
  ActivitiesCreateOptions.marshal
    (Some (ActivitiesCreateOptions.mk "call" 0 "" "" "" "" 7 9 3 None 0))
  = JObject [("subject", JString "call"); ("person_id", JNumber 3)].
Proof. reflexivity. Qed.

(** *** The rendering is the canonical decimal numeral *)

Lemma to_int_norm (z : Z) : Decimal.norm (Z.to_int z) = Z.to_int z.
Proof. rewrite <- DecimalZ.to_of. now rewrite DecimalZ.of_to. Qed.

Lemma to_uint_unorm (p : positive) : Decimal.unorm (Pos.to_uint p) = Pos.to_uint p.
Proof. assert (H := to_int_norm (Z.pos p)). cbn in H. now injection H. Qed.

Lemma allDigits_string_of_uint (d : Decimal.uint) :
  allDigits (NilEmpty.string_of_uint d) = true.
Proof. induction d; cbn; auto. Qed.

(** A numeral without leading zeros that is not zero is printed as a run of
    digits that does not start with 0. *)
Lemma canonicalUnsigned_string_of_uint (d : Decimal.uint) :
  Decimal.unorm d = d -> d <> Decimal.D0 Decimal.Nil ->
  canonicalUnsigned (NilEmpty.string_of_uint d) = true
  /\ NilEmpty.string_of_uint d <> "0".
Proof.
  intros Hn Hz.
  destruct d as [|d|d|d|d|d|d|d|d|d|d];
    try (split; [cbn; now rewrite allDigits_string_of_uint | cbn; discriminate]).
  - discriminate Hn.
  - exfalso. destruct (Decimal.uint_eq_dec d Decimal.Nil) as [-> | Hd]; [now apply Hz|].
    assert (L := DecimalFacts.nb_digits_unorm d Hd).
    change (Decimal.unorm (Decimal.D0 d)) with (Decimal.unorm d) in Hn.
    rewrite Hn in L. cbn in L. lia.
Qed.

Lemma itoa_canonical (z : Z) : canonicalDecimal (itoa z) = true.
Proof.
  unfold itoa. destruct z as [|p|p]; [reflexivity | |].
  - cbn [Z.to_int NilZero.string_of_int].
    destruct (canonicalUnsigned_string_of_uint (d := Pos.to_uint p)) as [Hc _];
      [apply to_uint_unorm | apply Unsigned.to_uint_nonzero |].
    assert (Hnil := Unsigned.to_uint_nonnil p).
    unfold NilZero.string_of_uint.
    destruct (Pos.to_uint p) eqn:E; [now elim Hnil|..];
      cbn in Hc |- *; exact Hc.
  - cbn [Z.to_int NilZero.string_of_int].
    destruct (canonicalUnsigned_string_of_uint (d := Pos.to_uint p)) as [Hc Hz];
      [apply to_uint_unorm | apply Unsigned.to_uint_nonzero |].
    assert (Hnil := Unsigned.to_uint_nonnil p).
    unfold NilZero.string_of_uint.
    destruct (Pos.to_uint p) eqn:E; [now elim Hnil|..];
      unfold canonicalDecimal; cbn [Ascii.eqb Bool.eqb];
      rewrite Hc; apply String.eqb_neq in Hz; rewrite Hz; reflexivity.
Qed.

(** *** Strings as the encoder writes them *)


(** A lone byte 0xFF, a truncated two-byte sequence and an encoded surrogate
    are replaced byte by byte; a well-formed two-byte sequence (C3 A9) and the
    replacement character itself are kept. *)
Example toValidUTF8_examples :
  toValidUTF8 (String (ascii_of_N 255) "x") = replacementChar ++ "x"
  /\ toValidUTF8 (String "a" (String (ascii_of_N 195) EmptyString)) = "a" ++ replacementChar
  /\ toValidUTF8 (String (ascii_of_N 237) (String (ascii_of_N 160)
                    (String (ascii_of_N 128) EmptyString)))
     = replacementChar ++ replacementChar ++ replacementChar
  /\ toValidUTF8 (String (ascii_of_N 195) (String (ascii_of_N 169) "!"))
     = String (ascii_of_N 195) (String (ascii_of_N 169) "!")
  /\ toValidUTF8 replacementChar = replacementChar.
Proof. repeat split; reflexivity. Qed.

(** ** Properties of the operations over an arbitrary client *)

Section Properties.
Variables context Response Summary AdditionalData Time error Request : Type.
Variables EventAction EventObject : Type.

Let ClientT : Type :=
  Client context Response Summary AdditionalData Time error Request EventAction EventObject.
Let OperationT : Type := Operation context EventAction EventObject.
Let WorldT : Type := World context Response error Request EventAction EventObject.

(** The test of [List]'s [switch] is the request for pagination. *)
Lemma List_switch (ctx : context) (opts : PaginationParameters.t) :
  (PaginationParameters.Limit opts >? 0)
  || negb (String.length (PaginationParameters.Cursor opts) =? 0)%nat
  = paginationRequested (OpList (EventAction := EventAction) (EventObject := EventObject)
                                ctx opts).
Proof.
  unfold paginationRequested. rewrite length_eqb_0, Z.gtb_ltb. apply orb_comm.
Qed.

(** Every operation asks for exactly one request and then calls [Do] at most
    once, after it. *)
Lemma calls_shape (c : ClientT) (op : OperationT) (w : WorldT) :
  exists method url opt body req err rest,
    calls c op w = EvNewRequest method url opt body req err :: rest
    /\ (rest = [] \/ exists ctx v resp err', rest = [EvDo ctx req v resp err']).
Proof.
  destruct op; trace_ops; do 6 eexists; eexists; (split; [reflexivity|]);
    solve [left; reflexivity | right; do 4 eexists; reflexivity].
Qed.

(** C7: for every call of every operation, on every client and after every
    history, [Do] is invoked at most once: no operation retries. *)
Theorem Do_at_most_once (c : ClientT) (op : OperationT) (w : WorldT) :
  (countDo (calls c op w) <= 1)%nat.
Proof.
  destruct (calls_shape c op w) as (m & u & q & b & req & err & rest & -> & [-> | H]).
  - cbn. lia.
  - destruct H as (ctx & v & resp & err' & ->). cbn. lia.
Qed.

(** C3: whenever the call of [Do] made by an operation reports an error, the
    operation returns that error (so a non-nil one), the response [Do]
    returned, and a nil record; this covers [List], [GetByID], [Create],
    [Update], [Summary] and the webhooks' [List] and [Create]. *)
Theorem Do_error_returned_without_record (c : ClientT) (op : OperationT) (w : WorldT)
    (ctx : option context) (req : option Request) (v : Dest)
    (resp : option Response) (e : error) :
  In (EvDo ctx req v resp (Some e)) (calls c op w) ->
  fst (run c op w) = mkOutcome true resp (Some e).
Proof.
  destruct op; trace_ops; cbn [In]; intros H;
    repeat match goal with
           | H : _ \/ _ |- _ => destruct H as [H | H]
           | H : False |- _ => destruct H
           | H : _ = _ |- _ => try discriminate H; injection H as; subst
           end; reflexivity.
Qed.

(** The operations other than [List] stop at a failed build: the error of
    [NewRequest] is returned and [Do] is not called. *)
Lemma build_error_returned (c : ClientT) (op : OperationT) (w : WorldT)
    (method url : string) (opt : option QueryArg)
    (body : option (BodyArg EventAction EventObject)) (req : option Request) (e : error) :
  (forall ctx opts, op <> OpList ctx opts) ->
  In (EvNewRequest method url opt body req (Some e)) (calls c op w) ->
  fst (run c op w) = mkOutcome true None (Some e) /\ countDo (calls c op w) = 0%nat.
Proof.
  intros Hop.
  destruct op; try (exfalso; eapply Hop; reflexivity); trace_ops; cbn [In]; intros H;
    repeat match goal with
           | H : _ \/ _ |- _ => destruct H as [H | H]
           | H : False |- _ => destruct H
           | H : _ = _ |- _ => try discriminate H; injection H as; subst
           end; split; reflexivity.
Qed.

(** [List] calls [Do] whatever [NewRequest] returned, with the request it
    got (nil after a failed build), and the error it returns is the one of
    [Do]. *)
Lemma List_always_calls_Do (c : ClientT) (ctx : context) (opts : PaginationParameters.t)
    (w : WorldT) :
  exists opt req err resp err',
    calls c (OpList ctx opts) w
    = [EvNewRequest MethodGet "/activities/collection" opt None req err;
       EvDo (Some ctx) req DestActivitiesReponse resp err']
    /\ outErr (fst (run c (OpList ctx opts) w)) = err'.
Proof.
  trace_ops; do 5 eexists; split; reflexivity.
Qed.
(** The request [List] asks for: always a GET of [/activities/collection]
    without body, with the options as query argument exactly when pagination
    is requested.  Whatever came back is handed to [Do]. *)
Lemma List_request (c : ClientT) (ctx : context) (opts : PaginationParameters.t) (w : WorldT) :
  let opt := if (0 <? PaginationParameters.Limit opts)
                || negb (String.eqb (PaginationParameters.Cursor opts) "")
             then Some (QueryPagination opts) else None in
  let r := NewRequest c w "GET" "/activities/collection" opt None in
  exists rest,
    calls c (OpList ctx opts) w
    = EvNewRequest "GET" "/activities/collection" opt None (fst r) (snd r) :: rest
    /\ forallb (@isDo _ _ _ _ _ _) rest = true
    /\ sent rest = [fst r].
Proof.
  cbv zeta. assert (E := List_switch ctx opts). cbn [paginationRequested] in E.
  rewrite (orb_comm (0 <? _)), <- E.
  trace_ops; eexists; repeat split; reflexivity.
Qed.

(** C2, amended: every operation asks for one request, and query parameters
    are passed for it exactly when the operation is [List] with pagination
    requested, or the operation is [Update] or [DeleteMultiple], which pass
    their options on every call. *)
Theorem query_attached_cases (c : ClientT) (op : OperationT) (w : WorldT) :
  exists opt,
    queryArgs (calls c op w) = [opt]
    /\ (opt <> None <-> paginationRequested op = true \/ sendsOptionsAsQuery op = true).
Proof.
  destruct op;
    try (assert (E := List_switch ctx opts); cbn [paginationRequested] in E);
    trace_ops; eexists; (split; [reflexivity|]); cbn;
    try match goal with
        | E : _ = negb _ || _, H : _ = _ |- _ => rewrite <- E, H
        end;
    intuition (try discriminate; try congruence).
Qed.

(** C6: [GetByID] asks for a GET of ["/activities/"] followed by the decimal
    rendering of the id, [Delete] for a DELETE of the same path, the webhooks'
    [Delete] for a DELETE of ["/webhooks/"] followed by the decimal rendering
    of the id; each without query argument and body, and each asks for no
    other request.  The rendering is the decimal numeral of the id: it reads
    back as the id, it is a run of digits without leading zero, after a minus
    sign when the id is negative; so 42 gives [/activities/42], -7 gives
    [/webhooks/-7] and 0 gives the digit 0. *)
Theorem id_operations_verb_and_path (c : ClientT) (ctx : context) (id : Z) (w : WorldT) :
  (exists req err rest,
     calls c (OpGetByID ctx id) w
     = EvNewRequest "GET" ("/activities/" ++ itoa id) None None req err :: rest
     /\ forallb (@isDo _ _ _ _ _ _) rest = true)
  /\ (exists req err rest,
        calls c (OpDelete ctx id) w
        = EvNewRequest "DELETE" ("/activities/" ++ itoa id) None None req err :: rest
        /\ forallb (@isDo _ _ _ _ _ _) rest = true)
  /\ (exists req err rest,
        calls c (OpWebhooksDelete id) w
        = EvNewRequest "DELETE" ("/webhooks/" ++ itoa id) None None req err :: rest
        /\ forallb (@isDo _ _ _ _ _ _) rest = true)
  /\ atoi (itoa id) = Some id
  /\ canonicalDecimal (itoa id) = true
  /\ "/activities/" ++ itoa 42 = "/activities/42"
  /\ "/webhooks/" ++ itoa (-7) = "/webhooks/-7"
  /\ itoa 0 = "0"
  /\ (exists req err rest,
        calls c (OpGetByID ctx 1234567890) w
        = EvNewRequest "GET" "/activities/1234567890" None None req err :: rest).
Proof.
  split; [|split; [|split; [|split; [|split; [|split; [|split; [|split]]]]]]].
  - trace_ops; do 3 eexists; split; reflexivity.
  - trace_ops; do 3 eexists; split; reflexivity.
  - trace_ops; do 3 eexists; split; reflexivity.
  - apply atoi_itoa.
  - apply itoa_canonical.
  - reflexivity.
  - reflexivity.
  - reflexivity.
  - trace_ops; do 3 eexists; reflexivity.
Qed.

(** The requests [Update], [Create], [DeleteMultiple] and the webhooks'
    [Create] ask for, and what reaches [Do]: the request that was built, when
    building it did not fail. *)
Lemma Update_request (c : ClientT) (ctx : context) (id : Z)
    (opt : option ActivitiesCreateOptions.t) (w : WorldT) :
  let r := NewRequest c w "PUT" ("/activities/" ++ itoa id)
             (Some (QueryActivitiesCreateOptions opt)) None in
  exists rest,
    calls c (OpUpdate ctx id opt) w
    = EvNewRequest "PUT" ("/activities/" ++ itoa id)
        (Some (QueryActivitiesCreateOptions opt)) None (fst r) (snd r) :: rest
    /\ forallb (@isDo _ _ _ _ _ _) rest = true
    /\ sent rest = if isNil (snd r) then [fst r] else [].
Proof. cbv zeta. trace_ops; eexists; repeat split; reflexivity. Qed.

Lemma Create_request (c : ClientT) (ctx : context)
    (opt : option ActivitiesCreateOptions.t) (w : WorldT) :
  let r := NewRequest c w "POST" "/activities" None
             (Some (BodyActivitiesCreateOptions opt)) in
  exists rest,
    calls c (OpCreate ctx opt) w
    = EvNewRequest "POST" "/activities" None
        (Some (BodyActivitiesCreateOptions opt)) (fst r) (snd r) :: rest
    /\ forallb (@isDo _ _ _ _ _ _) rest = true
    /\ sent rest = if isNil (snd r) then [fst r] else [].
Proof. cbv zeta. trace_ops; eexists; repeat split; reflexivity. Qed.

Lemma DeleteMultiple_request (c : ClientT) (ctx : context) (ids : list Z) (w : WorldT) :
  let opt := Some (QueryDeleteMultipleOptions
                     (DeleteMultipleOptions.mk (arrayToString ids ","))) in
  let r := NewRequest c w "DELETE" "/activities" opt None in
  exists rest,
    calls c (OpDeleteMultiple ctx ids) w
    = EvNewRequest "DELETE" "/activities" opt None (fst r) (snd r) :: rest
    /\ forallb (@isDo _ _ _ _ _ _) rest = true
    /\ sent rest = if isNil (snd r) then [fst r] else [].
Proof. cbv zeta. trace_ops; eexists; repeat split; reflexivity. Qed.

Lemma WebhooksCreate_request (c : ClientT)
    (opt : option (WebhooksCreateOptions.t EventAction EventObject)) (w : WorldT) :
  let r := NewRequest c w "POST" "/webhooks" None
             (Some (BodyWebhooksCreateOptions opt)) in
  exists rest,
    calls c (OpWebhooksCreate opt) w
    = EvNewRequest "POST" "/webhooks" None
        (Some (BodyWebhooksCreateOptions opt)) (fst r) (snd r) :: rest
    /\ forallb (@isDo _ _ _ _ _ _) rest = true
    /\ sent rest = if isNil (snd r) then [fst r] else [].
Proof. cbv zeta. trace_ops; eexists; repeat split; reflexivity. Qed.

(** C5: for every list of ids (so for every non-empty one), on every client,
    [DeleteMultiple] asks for a DELETE of [/activities] whose query argument
    has as [Ids] the decimal renderings of the ids joined in order with
    commas; that string has no space, only digits, minus signs and commas;
    and for the ids 1, 2, 3 it is ["1,2,3"]. *)
Theorem DeleteMultiple_joins_ids (c : ClientT) (ctx : context) (w : WorldT) :
  (forall ids,
     exists req err rest,
       calls c (OpDeleteMultiple ctx ids) w
       = EvNewRequest "DELETE" "/activities"
           (Some (QueryDeleteMultipleOptions
                    (DeleteMultipleOptions.mk (String.concat "," (map itoa ids)))))
           None req err :: rest
       /\ forallb (@isDo _ _ _ _ _ _) rest = true)
  /\ (forall ids,
        hasSpace (String.concat "," (map itoa ids)) = false
        /\ allChars isDecimalOrComma (String.concat "," (map itoa ids)) = true)
  /\ (exists req err rest,
        calls c (OpDeleteMultiple ctx [1; 2; 3]) w
        = EvNewRequest "DELETE" "/activities"
            (Some (QueryDeleteMultipleOptions (DeleteMultipleOptions.mk "1,2,3")))
            None req err :: rest
        /\ forallb (@isDo _ _ _ _ _ _) rest = true).
Proof.
  assert (J : forall ids,
             exists req err rest,
               calls c (OpDeleteMultiple ctx ids) w
               = EvNewRequest "DELETE" "/activities"
                   (Some (QueryDeleteMultipleOptions
                            (DeleteMultipleOptions.mk (String.concat "," (map itoa ids)))))
                   None req err :: rest
               /\ forallb (@isDo _ _ _ _ _ _) rest = true).
  { intros ids. pose proof (DeleteMultiple_request c ctx ids w) as H. cbv zeta in H.
    destruct H as (rest & Hc & Hd & _). rewrite arrayToString_concat in Hc.
    do 3 eexists. split; [exact Hc | exact Hd]. }
  split; [exact J | split].
  - intros ids. rewrite <- arrayToString_concat.
    split; [apply allChars_no_space with (p := isDecimalOrComma); [reflexivity|] |];
      apply arrayToString_chars.
  - exact (J [1; 2; 3]).
Qed.

(** C1, at a client whose request builder fails: [List] does not return the
    error of [NewRequest].  It calls [Do] with the nil request and returns
    what [Do] answers, its error or, when [Do] reports none, no error at
    all. *)
Theorem List_drops_build_error
    (doOf : forall v : Dest, WorldT -> option context -> option Request ->
            option (payload Summary AdditionalData Time v) * option Response * option error)
    (e : error) (ctx : context) (opts : PaginationParameters.t) (w : WorldT) :
  let c := mkClient Summary AdditionalData Time (fun _ _ _ _ _ => (None, Some e)) doOf in
  let opt := if (0 <? PaginationParameters.Limit opts)
                || negb (String.eqb (PaginationParameters.Cursor opts) "")
             then Some (QueryPagination opts) else None in
  let w1 := (w ++ [EvNewRequest "GET" "/activities/collection" opt None None (Some e)])%list in
  let d := doOf DestActivitiesReponse w1 (Some ctx) None in
  ActivitiesService_List (mkService c) ctx opts w
  = ((match snd d with Some _ => None | None => fst (fst d) end, snd (fst d), snd d),
     (w1 ++ [EvDo (Some ctx) None DestActivitiesReponse (snd (fst d)) (snd d)])%list).
Proof.
  cbv zeta. assert (E := List_switch ctx opts). cbn [paginationRequested] in E.
  rewrite (orb_comm (0 <? _)), <- E.
  unfold_ops; split_switch; cbn [NewRequest Do fst snd];
    match goal with
    | |- context [doOf ?v ?w ?ctx ?r] => destruct (doOf v w ctx r) as [[? ?] [?|]]
    end; reflexivity.
Qed.

End Properties.

(** ** Properties of the requests built by a client after the specification *)

Section SpecProperties.
Variables context Summary AdditionalData Time EventAction EventObject : Type.
Variable eventActionValue : EventAction -> GoValue.
Variable eventObjectValue : EventObject -> GoValue.
Variable base : string.
Variable encodeOptions : QueryArg -> option (list (string * string)).

Let TraceOf : Type :=
  World context Spec.HTTPResponse Spec.Error Spec.HTTPRequest EventAction EventObject.

Variable transport : TraceOf -> Spec.HTTPRequest -> option Spec.HTTPResponse.
Variable decode : forall v : Dest, string -> option (payload Summary AdditionalData Time v).

(** The client with a valid base URL. *)
Let specClient :=
  Spec.client Summary AdditionalData Time eventActionValue eventObjectValue (Some base)
    encodeOptions transport decode.

Ltac by_request L :=
  let H := fresh "H" in
  pose proof L as H; cbv zeta in H;
  let rest := fresh "rest" in
  let Hc := fresh "Hc" in
  let Hs := fresh "Hs" in
  destruct H as (rest & Hc & _ & Hs);
  rewrite Hc; cbn [sent flat_map app]; fold (sent rest); rewrite Hs.

Lemma spec_List_sent (ctx : context) (opts : PaginationParameters.t) (w : TraceOf) :
  sent (calls specClient (OpList ctx opts) w)
  = [Some (Spec.mkRequest "GET" (base ++ "/activities/collection")
             (if (0 <? PaginationParameters.Limit opts)
                 || negb (String.eqb (PaginationParameters.Cursor opts) "")
              then Spec.paginationValues opts else [])
             None)].
Proof.
  by_request (List_request specClient ctx opts w).
  destruct ((0 <? _) || _); reflexivity.
Qed.

Lemma spec_Create_sent (ctx : context) (opt : option ActivitiesCreateOptions.t) (w : TraceOf) :
  sent (calls specClient (OpCreate ctx opt) w)
  = [Some (Spec.mkRequest "POST" (base ++ "/activities") []
             (Some (ActivitiesCreateOptions.marshal opt)))].
Proof. by_request (Create_request specClient ctx opt w). reflexivity. Qed.

Lemma spec_Update_sent (ctx : context) (id : Z) (opt : option ActivitiesCreateOptions.t)
    (w : TraceOf) :
  sent (calls specClient (OpUpdate ctx id opt) w)
  = match encodeOptions (QueryActivitiesCreateOptions opt) with
    | Some q => [Some (Spec.mkRequest "PUT" (base ++ "/activities/" ++ itoa id) q None)]
    | None => []
    end.
Proof.
  by_request (Update_request specClient ctx id opt w).
  unfold specClient; cbn. unfold Spec.NewRequest; cbn.
  destruct (encodeOptions _); reflexivity.
Qed.

Lemma spec_WebhooksCreate_sent
    (opt : option (WebhooksCreateOptions.t EventAction EventObject)) (w : TraceOf) :
  sent (calls specClient (OpWebhooksCreate opt) w)
  = [Some (Spec.mkRequest "POST" (base ++ "/webhooks") []
             (Some (WebhooksCreateOptions.marshal eventActionValue eventObjectValue opt)))].
Proof. by_request (WebhooksCreate_request specClient opt w). reflexivity. Qed.

(** C4: on every client, [List] asks for a GET of [/activities/collection]
    and passes [opts] as query argument exactly when [opts.Limit > 0] or
    [opts.Cursor] is non-empty, nil otherwise.  On a client after the
    specification, with limit 0 and empty cursor the request that is sent has
    no query parameter at all, and with limit 50 it has [limit=50] (followed
    by the cursor when there is one). *)
Theorem List_pagination_query :
  (forall (Response error Request Summary' AdditionalData' Time' : Type)
          (c : Client context Response Summary' AdditionalData' Time' error Request
                      EventAction EventObject)
          (ctx : context) (opts : PaginationParameters.t) w,
      exists req err rest,
        calls c (OpList ctx opts) w
        = EvNewRequest "GET" "/activities/collection"
            (if (0 <? PaginationParameters.Limit opts)
                || negb (String.eqb (PaginationParameters.Cursor opts) "")
             then Some (QueryPagination opts) else None)
            None req err :: rest
        /\ forallb (@isDo _ _ _ _ _ _) rest = true)
  /\ (forall (ctx : context) (w : TraceOf),
        sent (calls specClient (OpList ctx (PaginationParameters.mk 0 "")) w)
        = [Some (Spec.mkRequest "GET" (base ++ "/activities/collection") [] None)])
  /\ (forall (ctx : context) (cursor : string) (w : TraceOf),
        sent (calls specClient (OpList ctx (PaginationParameters.mk 50 cursor)) w)
        = [Some (Spec.mkRequest "GET" (base ++ "/activities/collection")
                   (("limit", "50")
                      :: (if String.eqb cursor "" then [] else [("cursor", cursor)]))
                   None)]).
Proof.
  split; [|split].
  - intros. pose proof (List_request c ctx opts w) as H. cbv zeta in H.
    destruct H as (rest & Hc & Hd & _). do 3 eexists. split; [exact Hc | exact Hd].
  - intros. rewrite spec_List_sent. reflexivity.
  - intros. rewrite spec_List_sent. reflexivity.
Qed.

(** C8: [UserID] and [DealID] of [ActivitiesCreateOptions] both carry the tag
    [user_id], and the body encoded for [Create] has neither a [user_id] nor
    a [deal_id] key, whatever the options hold (so also when [UserID] or
    [DealID] is not zero); the body does not depend on the two fields, so the
    value of [DealID] is not transmitted; and this body is the one of the
    request [Create] sends. *)
Theorem Create_body_without_user_id_and_deal_id :
  (forall o : ActivitiesCreateOptions.t,
      map jsonTag (filter (fun f => String.eqb (fieldName f) "UserID"
                                    || String.eqb (fieldName f) "DealID")
                          (ActivitiesCreateOptions.fields o))
      = [Some ("user_id", true); Some ("user_id", true)])
  /\ (forall o : ActivitiesCreateOptions.t,
        ~ In "user_id" (keys (ActivitiesCreateOptions.marshal (Some o)))
        /\ ~ In "deal_id" (keys (ActivitiesCreateOptions.marshal (Some o))))
  /\ (forall subject done type dueDate dueTime duration userID dealID personID
             participants orgID userID' dealID',
        ActivitiesCreateOptions.marshal
          (Some (ActivitiesCreateOptions.mk subject done type dueDate dueTime duration
                   userID dealID personID participants orgID))
        = ActivitiesCreateOptions.marshal
            (Some (ActivitiesCreateOptions.mk subject done type dueDate dueTime duration
                     userID' dealID' personID participants orgID)))
  /\ (forall (ctx : context) (o : ActivitiesCreateOptions.t) (w : TraceOf),
        sent (calls specClient (OpCreate ctx (Some o)) w)
        = [Some (Spec.mkRequest "POST" (base ++ "/activities") []
                   (Some (ActivitiesCreateOptions.marshal (Some o))))]).
Proof.
  split; [|split; [|split]].
  - reflexivity.
  - intros o. split; intros H; apply keys_marshalStruct in H; cbn in H;
      repeat (destruct H as [H | H]; [discriminate H|]); exact H.
  - reflexivity.
  - intros. apply spec_Create_sent.
Qed.

(** C9: [WebhooksCreateOptions] declares no [json] tag, and the webhooks'
    [Create] passes it as body: for every options value the keys of the
    encoded body are the six Go field names, none of them one of the
    snake_case names of the [url] tags; and this body is the one of the
    request that is sent. *)
Theorem WebhooksCreate_body_uses_field_names :
  (forall o : WebhooksCreateOptions.t EventAction EventObject,
      keys (WebhooksCreateOptions.marshal eventActionValue eventObjectValue (Some o))
      = ["SubscriptionUrl"; "EventAction"; "DealProbability"; "UserId";
         "HttpAuthUser"; "HttpAuthPassword"])
  /\ (forall (o : WebhooksCreateOptions.t EventAction EventObject),
        forallb (fun k => negb (existsb (String.eqb k)
                   (keys (WebhooksCreateOptions.marshal eventActionValue eventObjectValue
                            (Some o)))))
                ["subscription_url"; "event_action"; "event_object"; "user_id";
                 "http_auth_user"; "http_auth_password"] = true)
  /\ (forall (o : WebhooksCreateOptions.t EventAction EventObject) (w : TraceOf),
        sent (calls specClient (OpWebhooksCreate (Some o)) w)
        = [Some (Spec.mkRequest "POST" (base ++ "/webhooks") []
                   (Some (WebhooksCreateOptions.marshal eventActionValue eventObjectValue
                            (Some o))))]).
Proof.
  split; [|split].
  - reflexivity.
  - reflexivity.
  - intros. apply spec_WebhooksCreate_sent.
Qed.

(** C10: on every client, [Update] passes its options as the query argument
    of [NewRequest] (the third) and no body, while [Create] passes the same
    options as body and no query argument.  On a client after the
    specification the request [Update] sends has the encoded options as query
    and no body, and the request [Create] sends has no query and the options
    as JSON body. *)
Theorem Update_query_Create_body :
  (forall (Response error Request Summary' AdditionalData' Time' : Type)
          (c : Client context Response Summary' AdditionalData' Time' error Request
                      EventAction EventObject)
          (ctx : context) (id : Z) (opt : option ActivitiesCreateOptions.t) w,
      (exists req err rest,
         calls c (OpUpdate ctx id opt) w
         = EvNewRequest "PUT" ("/activities/" ++ itoa id)
             (Some (QueryActivitiesCreateOptions opt)) None req err :: rest
         /\ forallb (@isDo _ _ _ _ _ _) rest = true)
      /\ (exists req err rest,
            calls c (OpCreate ctx opt) w
            = EvNewRequest "POST" "/activities" None
                (Some (BodyActivitiesCreateOptions opt)) req err :: rest
            /\ forallb (@isDo _ _ _ _ _ _) rest = true))
  /\ (forall (ctx : context) (id : Z) (opt : option ActivitiesCreateOptions.t) (w : TraceOf),
        sent (calls specClient (OpUpdate ctx id opt) w)
        = match encodeOptions (QueryActivitiesCreateOptions opt) with
          | Some q => [Some (Spec.mkRequest "PUT" (base ++ "/activities/" ++ itoa id) q None)]
          | None => []
          end)
  /\ (forall (ctx : context) (opt : option ActivitiesCreateOptions.t) (w : TraceOf),
        sent (calls specClient (OpCreate ctx opt) w)
        = [Some (Spec.mkRequest "POST" (base ++ "/activities") []
                   (Some (ActivitiesCreateOptions.marshal opt)))]).
Proof.
  split; [|split].
  - intros. split.
    + pose proof (Update_request c ctx id opt w) as H. cbv zeta in H.
      destruct H as (rest & Hc & Hd & _). do 3 eexists. split; [exact Hc | exact Hd].
    + pose proof (Create_request c ctx opt w) as H. cbv zeta in H.
      destruct H as (rest & Hc & Hd & _). do 3 eexists. split; [exact Hc | exact Hd].
  - intros. apply spec_Update_sent.
  - intros. apply spec_Create_sent.
Qed.

End SpecProperties.

(** ** The operations at concrete clients *)

(** With an invalid base URL, [GetByID] returns the build error and does not
    call [Do], while [List] calls [Do] without a request and returns the
    error of [Do]. *)
Example invalid_base_URL_GetByID_and_List :
  ActivitiesService_GetByID (mkService (exampleClient None 200)) tt 7 []
  = ((None, None, Some Spec.ErrInvalidBaseURL),
     [EvNewRequest "GET" "/activities/7" None None None (Some Spec.ErrInvalidBaseURL)])
  /\ ActivitiesService_List (mkService (exampleClient None 200)) tt
       (PaginationParameters.mk 0 "") []
     = ((None, None, Some Spec.ErrNoRequest),
        [EvNewRequest "GET" "/activities/collection" None None None
           (Some Spec.ErrInvalidBaseURL);
         EvDo (Some tt) None DestActivitiesReponse None (Some Spec.ErrNoRequest)]).
Proof. split; reflexivity. Qed.

(** C2, as stated, fails: [DeleteMultiple] requests no pagination and passes
    a query argument, the ID filter. *)
Lemma DeleteMultiple_query_without_pagination :
  ~ queryIffPagination (exampleClient (Some "https://api.pipedrive.com/v1") 200)
      (OpDeleteMultiple tt [1; 2; 3]) [].
Proof.
  intros H.
  specialize (H (Some (QueryDeleteMultipleOptions (DeleteMultipleOptions.mk "1,2,3")))).
  destruct H as [H _]; [left; reflexivity|].
  discriminate H. discriminate.
Qed.

(** A 404 answer to [Create]: the status error comes back without record. *)
Lemma Do_error_returned_without_record_witness :
  let c := exampleClient (Some "https://api.pipedrive.com/v1") 404 in
  let req := Spec.mkRequest "POST" "https://api.pipedrive.com/v1/activities" []
               (Some JNull) in
  In (EvDo (Some tt) (Some req) DestActivityResponse
        (Some (Spec.mkResponse 404 "")) (Some (Spec.ErrStatus 404 "")))
     (calls c (OpCreate tt None) [])
  /\ fst (run c (OpCreate tt None) [])
     = mkOutcome true (Some (Spec.mkResponse 404 "")) (Some (Spec.ErrStatus 404 "")).
Proof.
  cbv zeta.
  assert (H : In (EvDo (Some tt)
                    (Some (Spec.mkRequest "POST" "https://api.pipedrive.com/v1/activities" []
                             (Some JNull)))
                    DestActivityResponse
                    (Some (Spec.mkResponse 404 "")) (Some (Spec.ErrStatus 404 "")))
                 (calls (exampleClient (Some "https://api.pipedrive.com/v1") 404)
                    (OpCreate tt None) [])).
  { right; left; reflexivity. }
  split; [exact H|].
  exact (Do_error_returned_without_record _ _ _ _ _ _ _ _ H).
Defined.

(** ** Further properties of the encoded bodies and of the paths *)





(** *** No key is written twice *)

Lemma NoDup_fst_combine (A B : Type) (l : list A) (k : list B) :
  NoDup l -> NoDup (map fst (combine l k)).
Proof.
  intros H. revert k. induction H as [|a l Hin Hnd IH]; intros k; [constructor|].
  destruct k as [|b k]; cbn; constructor; [|apply IH].
  intros Hc. apply Hin. apply in_map_iff in Hc as ([a' b'] & <- & Hc).
  now apply in_combine_l in Hc.
Qed.

Lemma NoDup_fst_functional (A B : Type) (l : list (A * B)) (a : A) (b b' : B) :
  NoDup (map fst l) -> In (a, b) l -> In (a, b') l -> b = b'.
Proof.
  induction l as [|[a0 b0] l IH]; cbn; [tauto|].
  intros Hnd H1 H2. inversion Hnd as [|? ? Hnotin Hnd']; subst.
  destruct H1 as [H1 | H1], H2 as [H2 | H2].
  - congruence.
  - injection H1 as -> ->. exfalso. apply Hnotin. apply in_map_iff. now exists (a, b').
  - injection H2 as -> ->. exfalso. apply Hnotin. apply in_map_iff. now exists (a, b).
  - now apply IH.
Qed.

Lemma NoDup_map_filter_inj (A B : Type) (h : A -> B) (p : A -> bool) (l : list A) :
  NoDup l ->
  (forall x y, In x l -> In y l -> p x = true -> p y = true -> h x = h y -> x = y) ->
  NoDup (map h (filter p l)).
Proof.
  intros Hnd. induction Hnd as [|a l Hin Hnd IH]; intros Hinj; cbn; [constructor|].
  assert (IH' : NoDup (map h (filter p l))).
  { apply IH. intros x y Hx Hy. apply Hinj; now right. }
  destruct (p a) eqn:Ha; [|exact IH'].
  cbn. constructor; [|exact IH'].
  intros Hc. apply in_map_iff in Hc as (y & Hy & Hf). apply filter_In in Hf as [Hyl Hyp].
  apply Hin. rewrite <- (Hinj y a); auto; [now right | now left].
Qed.

Lemma NoDup_map_filter (A B : Type) (h : A -> B) (p : A -> bool) (l : list A) :
  NoDup (map h l) -> NoDup (map h (filter p l)).
Proof.
  induction l as [|a l IH]; cbn; [auto|].
  intros H. inversion H as [|? ? Hin Hnd]; subst.
  destruct (p a); [|now apply IH]. cbn. constructor; [|now apply IH].
  intros Hc. apply Hin. apply in_map_iff in Hc as (y & Hy & Hf).
  apply filter_In in Hf as [Hyl _]. apply in_map_iff. now exists y.
Qed.

(** Two fields that both survive the resolution of shared keys have
    different keys. *)
Lemma typeFields_NoDup (fs : list StructField) : NoDup (map jsonName (typeFields fs)).
Proof.
  unfold typeFields. rewrite map_map.
  set (l := combine (seq 0 (List.length fs)) fs).
  assert (Hfst : NoDup (map fst l)) by apply NoDup_fst_combine, seq_NoDup.
  assert (Hl : NoDup l) by (eapply NoDup_map_inv; exact Hfst).
  apply NoDup_map_filter_inj; [exact Hl|].
  intros [i f] [j g] Hx Hy Hdx Hdy Hname. cbn [fst snd] in *.
  unfold dominantField in Hdx, Hdy. fold l in Hdx, Hdy.
  assert (Hg : filter (fun ig => sameKey g (snd ig)) l
               = filter (fun ig => sameKey f (snd ig)) l).
  { apply filter_ext. intros ig. unfold sameKey. now rewrite Hname. }
  rewrite Hg in Hdy.
  assert (Hxin : In (i, f) (filter (fun ig => sameKey f (snd ig)) l)).
  { apply filter_In. split; [exact Hx|]. apply String.eqb_refl. }
  assert (Hyin : In (j, g) (filter (fun ig => sameKey f (snd ig)) l)).
  { apply filter_In. split; [exact Hy|]. unfold sameKey. cbn. rewrite Hname.
    apply String.eqb_refl. }
  assert (Hij : i = j).
  { destruct (filter (fun ig => sameKey f (snd ig)) l) as [|z [|z' rest]].
    - destruct Hxin.
    - destruct Hxin as [Ex | []], Hyin as [Ey | []]. congruence.
    - destruct (filter (fun ig => tagged (snd ig)) (z :: z' :: rest)) as [|[k t] [|? ?]];
        try discriminate.
      apply Nat.eqb_eq in Hdx, Hdy. congruence. }
  subst j. f_equal. exact (NoDup_fst_functional l i f g Hfst Hx Hy).
Qed.

(** The bodies of the two [Create] operations never contain a key twice,
    whatever the options hold; this holds for the encoding of every struct. *)
Theorem body_keys_NoDup :
  (forall fs : list StructField, NoDup (keys (marshalStruct fs)))
  /\ (forall opt : option ActivitiesCreateOptions.t,
        NoDup (keys (ActivitiesCreateOptions.marshal opt)))
  /\ (forall (EventAction EventObject : Type)
             (eventActionValue : EventAction -> GoValue)
             (eventObjectValue : EventObject -> GoValue)
             (opt : option (WebhooksCreateOptions.t EventAction EventObject)),
        NoDup (keys (WebhooksCreateOptions.marshal eventActionValue eventObjectValue opt))).
Proof.
  assert (G : forall fs : list StructField, NoDup (keys (marshalStruct fs))).
  { intros fs. unfold marshalStruct, marshalFields, keys. rewrite map_map. cbn [fst].
    apply NoDup_map_filter, typeFields_NoDup. }
  split; [exact G | split].
  - intros [o|]; [apply G | constructor].
  - intros ? ? ? ? [o|]; [apply G | constructor].
Qed.

(** *** The paths built from an id *)

Lemma append_cancel_l (p a b : string) : p ++ a = p ++ b -> a = b.
Proof. induction p as [|ch p IH]; cbn; [auto|]. intros H. injection H as H. auto. Qed.

Lemma itoa_inj (a b : Z) : itoa a = itoa b -> a = b.
Proof.
  intros H. assert (E : atoi (itoa a) = atoi (itoa b)) by now rewrite H.
  rewrite !atoi_itoa in E. now injection E.
Qed.

(** Two ids with the same path are the same id: [GetByID], [Update],
    [Delete] and the webhooks' [Delete] never address two different records
    by one path. *)
Theorem id_path_injective (prefix : string) (id id' : Z) :
  Sprintf_v prefix id = Sprintf_v prefix id' -> id = id'.
Proof. unfold Sprintf_v. intros H. now apply itoa_inj, append_cancel_l with (p := prefix). Qed.

Lemma itoa_not (s : string) (id : Z) : allChars isDecimalChar s = false -> itoa id <> s.
Proof. intros H E. rewrite <- E, itoa_chars in H. discriminate H. Qed.

(** The path of an id is never one of the fixed paths of the services: for no
    id does [GetByID], [Update] or [Delete] address the summary, the
    collection or the bare [/activities] endpoint, nor the webhooks' [Delete]
    the bare [/webhooks] endpoint. *)
Theorem id_path_not_fixed_path (id : Z) :
  String.eqb (Sprintf_v "/activities/" id) "/activities/summary" = false
  /\ String.eqb (Sprintf_v "/activities/" id) "/activities/collection" = false
  /\ String.eqb (Sprintf_v "/activities/" id) "/activities" = false
  /\ String.eqb (Sprintf_v "/webhooks/" id) "/webhooks" = false.
Proof.
  unfold Sprintf_v. split; [|split; [|split]]; apply String.eqb_neq; intros H.
  - apply (append_cancel_l "/activities/" (itoa id) "summary") in H.
    now apply itoa_not in H.
  - apply (append_cancel_l "/activities/" (itoa id) "collection") in H.
    now apply itoa_not in H.
  - apply (append_cancel_l "/activities" ("/" ++ itoa id) "") in H. discriminate H.
  - apply (append_cancel_l "/webhooks" ("/" ++ itoa id) "") in H. discriminate H.
Qed.

(** ** Further properties of the operations over an arbitrary client *)

Section OperationProperties.
Variables context Response Summary AdditionalData Time error Request : Type.
Variables EventAction EventObject : Type.

Let ClientT : Type :=
  Client context Response Summary AdditionalData Time error Request EventAction EventObject.
Let OperationT : Type := Operation context EventAction EventObject.
Let WorldT : Type := World context Response error Request EventAction EventObject.

Ltac cases_of H :=
  repeat match type of H with
         | _ \/ _ => destruct H as [H | H]
         | False => destruct H
         | _ = _ => try discriminate H; injection H as; subst
         end.

(** An operation other than [List] whose request could not be built returns
    the error of [NewRequest] with a nil record and a nil response, and does
    not call [Do]. *)
Theorem failed_build_returned (c : ClientT) (op : OperationT) (w : WorldT)
    (method url : string) (opt : option QueryArg)
    (body : option (BodyArg EventAction EventObject)) (req : option Request) (e : error) :
  isList op = false ->
  In (EvNewRequest method url opt body req (Some e)) (calls c op w) ->
  fst (run c op w) = mkOutcome true None (Some e) /\ countDo (calls c op w) = 0%nat.
Proof.
  intros Hop. apply build_error_returned. intros ctx opts ->. discriminate Hop.
Qed.

(** After a request was built without error, every operation calls [Do]
    exactly once, with exactly that request and with the caller's context
    (none in the webhooks service), and makes no other call. *)
Theorem successful_build_calls_Do (c : ClientT) (op : OperationT) (w : WorldT)
    (method url : string) (opt : option QueryArg)
    (body : option (BodyArg EventAction EventObject)) (req : option Request) :
  In (EvNewRequest method url opt body req None) (calls c op w) ->
  exists v resp err,
    calls c op w
    = [EvNewRequest method url opt body req None; EvDo (contextOf op) req v resp err].
Proof.
  destruct op; trace_ops; cbn [In]; intros H; cases_of H; do 3 eexists; reflexivity.
Qed.

(** Whatever [Do] answers, the operation that called it returns the same
    response and the same error (or none). *)
Theorem Do_answer_forwarded (c : ClientT) (op : OperationT) (w : WorldT)
    (ctx : option context) (req : option Request) (v : Dest)
    (resp : option Response) (err : option error) :
  In (EvDo ctx req v resp err) (calls c op w) ->
  outResp (fst (run c op w)) = resp /\ outErr (fst (run c op w)) = err.
Proof.
  destruct op; trace_ops; cbn [In]; intros H; cases_of H; split; reflexivity.
Qed.

(** An operation with a typed record that reports no error returns exactly
    what its own call of [Do] answered: the call made after the request the
    operation asked for, with the request [NewRequest] returned, the caller's
    context and the operation's destination type.  The record [Do] decoded
    and the response come back unchanged, and the trace holds these two
    calls and no other. *)
Theorem successful_record_is_Do_answer (c : ClientT)
    (op : RecordOperation context EventAction EventObject) (w : WorldT) :
  snd (fst (runRecord c op w)) = None ->
  exists method url opt body,
    let r := NewRequest c w method url opt body in
    let w1 := (w ++ [EvNewRequest method url opt body (fst r) (snd r)])%list in
    let d := Do c (destOf op) w1 (contextOf (operationOf op)) (fst r) in
    requestArgs (calls c (operationOf op) w) = [(method, url, opt, body)]
    /\ fst (runRecord c op w) = d
    /\ snd (runRecord c op w)
       = (w1 ++ [EvDo (contextOf (operationOf op)) (fst r) (destOf op)
                   (snd (fst d)) (snd d)])%list
    /\ snd (run c (operationOf op) w) = snd (runRecord c op w).
Proof.
  intros H.
  destruct op; cbn [operationOf contextOf destOf] in *; unfold runRecord in *;
    revert H; unfold_ops; split_switch;
    match goal with
    | |- context [NewRequest ?c ?w ?m ?u ?q ?b] =>
        intros H; exists m, u, q, b; revert H;
        destruct (NewRequest c w m u q b) as [? [?|]]
    end;
    cbv zeta; cbn [fst snd];
    try (intros H; discriminate H);
    match goal with
    | |- context [Do ?c ?v ?w ?ctx ?r] =>
        destruct (Do c v w ctx r) as [[? ?] [?|]]
    end;
    cbn [fst snd]; intros H; try discriminate H;
    rewrite <- ?app_assoc, ?skipn_length_app; cbn [app requestArgs flat_map];
    repeat split; reflexivity.
Qed.

(** What every request asked for looks like: the verb is one of four; a body
    is passed exactly with POST; query argument and body are never passed
    together; the path lies under [/activities] or [/webhooks]. *)
Theorem request_invariants (c : ClientT) (op : OperationT) (w : WorldT)
    (method url : string) (opt : option QueryArg)
    (body : option (BodyArg EventAction EventObject)) (req : option Request)
    (err : option error) :
  In (EvNewRequest method url opt body req err) (calls c op w) ->
  In method ["GET"; "POST"; "PUT"; "DELETE"]
  /\ (body <> None <-> method = "POST")
  /\ (opt = None \/ body = None)
  /\ (String.prefix "/activities" url = true \/ String.prefix "/webhooks" url = true).
Proof.
  destruct op; trace_ops; cbn [In]; intros H; cases_of H;
    (split; [cbn; tauto | split; [split; [intros; try reflexivity; congruence
                                         | intros; try discriminate]
                                 | split; [tauto | cbn; tauto]]]).
Qed.

(** What an operation asks for depends on its arguments only: neither the
    client nor the history of earlier calls changes verb, path, query argument
    or body. *)
Theorem request_arguments_stateless (c c' : ClientT) (op : OperationT) (w w' : WorldT) :
  requestArgs (calls c op w) = requestArgs (calls c' op w').
Proof.
  destruct op; trace_ops; reflexivity.
Qed.

End OperationProperties.

(** ** The further properties at concrete clients *)

Lemma id_path_injective_witness :
  Sprintf_v "/activities/" 7 = Sprintf_v "/activities/" 7 /\ 7 = 7.
Proof.
  split; [reflexivity|].
  apply (id_path_injective "/activities/" 7 7). reflexivity.
Defined.

(** [GetByID] with an invalid base URL. *)
Lemma failed_build_returned_witness :
  let c := exampleClient None 200 in
  isList (OpGetByID (EventAction := string) (EventObject := string) tt 7) = false
  /\ In (EvNewRequest "GET" "/activities/7" None None None (Some Spec.ErrInvalidBaseURL))
        (calls c (OpGetByID tt 7) [])
  /\ fst (run c (OpGetByID tt 7) []) = mkOutcome true None (Some Spec.ErrInvalidBaseURL)
  /\ countDo (calls c (OpGetByID tt 7) []) = 0%nat.
Proof.
  cbv zeta.
  assert (H : In (EvNewRequest "GET" "/activities/7" None None None
                    (Some Spec.ErrInvalidBaseURL))
                 (calls (exampleClient None 200) (OpGetByID tt 7) [])).
  { left; reflexivity. }
  split; [reflexivity | split; [exact H|]].
  exact (failed_build_returned (exampleClient None 200) (OpGetByID tt 7) []
           _ _ _ _ _ _ eq_refl H).
Defined.

(** [Delete] of activity 7, answered with 404. *)
Lemma successful_build_calls_Do_witness :
  let c := exampleClient (Some "https://api.pipedrive.com/v1") 404 in
  let req := Spec.mkRequest "DELETE" "https://api.pipedrive.com/v1/activities/7" [] None in
  In (EvNewRequest "DELETE" "/activities/7" None None (Some req) None)
     (calls c (OpDelete tt 7) [])
  /\ exists v resp err,
       calls c (OpDelete tt 7) []
       = [EvNewRequest "DELETE" "/activities/7" None None (Some req) None;
          EvDo (Some tt) (Some req) v resp err].
Proof.
  cbv zeta.
  assert (H : In (EvNewRequest "DELETE" "/activities/7" None None
                    (Some (Spec.mkRequest "DELETE" "https://api.pipedrive.com/v1/activities/7"
                             [] None)) None)
                 (calls (exampleClient (Some "https://api.pipedrive.com/v1") 404)
                    (OpDelete tt 7) [])).
  { left; reflexivity. }
  split; [exact H|].
  exact (successful_build_calls_Do _ _ _ _ _ _ _ _ H).
Defined.

(** [Summary], answered with 200 and a body that decodes. *)
Lemma Do_answer_forwarded_witness :
  let c := summaryClient (Some "https://api.pipedrive.com/v1") 200 in
  let req := Spec.mkRequest "GET" "https://api.pipedrive.com/v1/activities/summary" [] None in
  In (EvDo (Some tt) (Some req) DestSummary (Some (Spec.mkResponse 200 "{}")) None)
     (calls c (OpSummary tt) [])
  /\ outResp (fst (run c (OpSummary tt) [])) = Some (Spec.mkResponse 200 "{}")
  /\ outErr (fst (run c (OpSummary tt) [])) = None.
Proof.
  cbv zeta.
  assert (H : In (EvDo (Some tt)
                    (Some (Spec.mkRequest "GET"
                             "https://api.pipedrive.com/v1/activities/summary" [] None))
                    DestSummary (Some (Spec.mkResponse 200 "{}")) None)
                 (calls (summaryClient (Some "https://api.pipedrive.com/v1") 200)
                    (OpSummary tt) [])).
  { right; left; reflexivity. }
  split; [exact H|].
  exact (Do_answer_forwarded _ _ _ _ _ _ _ _ H).
Defined.

Lemma successful_record_is_Do_answer_witness :
  let c := summaryClient (Some "https://api.pipedrive.com/v1") 200 in
  let req := Spec.mkRequest "GET" "https://api.pipedrive.com/v1/activities/summary" [] None in
  snd (fst (runRecord c (RecSummary tt) [])) = None
  /\ fst (runRecord c (RecSummary tt) [])
     = (Some tt, Some (Spec.mkResponse 200 "{}"), None)
  /\ exists method url opt body,
       let r := NewRequest c [] method url opt body in
       let w1 := ([] ++ [EvNewRequest method url opt body (fst r) (snd r)])%list in
       let d := Do c DestSummary w1 (Some tt) (fst r) in
       requestArgs (calls c (OpSummary tt) []) = [(method, url, opt, body)]
       /\ fst (runRecord c (RecSummary tt) []) = d
       /\ snd (runRecord c (RecSummary tt) [])
          = (w1 ++ [EvDo (Some tt) (fst r) DestSummary (snd (fst d)) (snd d)])%list
       /\ snd (run c (OpSummary tt) []) = snd (runRecord c (RecSummary tt) []).
Proof.
  cbv zeta. split; [reflexivity | split; [reflexivity|]].
  exact (successful_record_is_Do_answer
           (summaryClient (Some "https://api.pipedrive.com/v1") 200)
           (RecSummary tt) [] eq_refl).
Defined.

(** [Update] of activity 7 without options. *)
Lemma request_invariants_witness :
  let c := exampleClient (Some "https://api.pipedrive.com/v1") 200 in
  let req := Spec.mkRequest "PUT" "https://api.pipedrive.com/v1/activities/7" [] None in
  In (EvNewRequest "PUT" "/activities/7" (Some (QueryActivitiesCreateOptions None)) None
        (Some req) None)
     (calls c (OpUpdate tt 7 None) [])
  /\ In "PUT" ["GET"; "POST"; "PUT"; "DELETE"]
  /\ ((@None (BodyArg string string)) <> None <-> "PUT" = "POST")
  /\ (Some (QueryActivitiesCreateOptions None) = None \/ @None (BodyArg string string) = None)
  /\ (String.prefix "/activities" "/activities/7" = true
      \/ String.prefix "/webhooks" "/activities/7" = true).
Proof.
  cbv zeta.
  assert (H : In (EvNewRequest "PUT" "/activities/7"
                    (Some (QueryActivitiesCreateOptions None)) None
                    (Some (Spec.mkRequest "PUT" "https://api.pipedrive.com/v1/activities/7"
                             [] None)) None)
                 (calls (exampleClient (Some "https://api.pipedrive.com/v1") 200)
                    (OpUpdate tt 7 None) [])).
  { left; reflexivity. }
  split; [exact H|].
  exact (request_invariants _ _ _ _ _ _ _ _ _ H).
Defined.
